(** * sqlmesh/utils/errors.py

    A shallow embedding of the error taxonomy of [sqlmesh.utils.errors] and
    of its two raising helpers, [raise_config_error] and [raise_for_status].

    Python classes become constructors of [ErrorClass], linked by the
    [base] function (every class of the module has a single base).  An
    exception instance is a value of [exn]; a function that may raise
    returns an [outcome]. *)

From Stdlib Require Import ZArith List String Ascii Bool Lia DecimalString.
Import ListNotations.
Local Open Scope string_scope.
Local Open Scope Z_scope.

(** ** Classes *)

(** The classes of the module, with the two builtins they meet:
    [Exception], the base of the two roots, and [TypeError], which the
    interpreter raises when a call does not fit a signature. *)
Inductive ErrorClass : Set :=
| Exception
| TypeError
| SQLMeshError
| ConfigError
| MissingDependencyError
| MacroEvalError
| PlanError
| NoChangesPlanError
| UncategorizedPlanError
| ConflictingPlanError
| MissingContextException
| SnapshotVersionError
| MagicError
| AuditConfigError
| AuditError
| TestError
| NotificationTargetError
| ApiError
| ApiClientError
| ApiServerError
| NotFoundError
| CICDBotError
| ParsetimeAdapterCallError
| EngineAdapterError
| UnsupportedCatalogOperationError
| CircuitBreakerError
| PythonModelEvalError.

Scheme Equality for ErrorClass.

(** The base named in each [class X(Base)] header; [Exception] stands for
    the builtin part of the chain and has no base here. *)
Definition base (c : ErrorClass) : option ErrorClass :=
  match c with
  | Exception => None
  | TypeError => Some Exception
  | SQLMeshError => Some Exception
  | ConfigError => Some SQLMeshError
  | MissingDependencyError => Some SQLMeshError
  | MacroEvalError => Some SQLMeshError
  | PlanError => Some SQLMeshError
  | NoChangesPlanError => Some PlanError
  | UncategorizedPlanError => Some PlanError
  | ConflictingPlanError => Some PlanError
  | MissingContextException => Some Exception
  | SnapshotVersionError => Some SQLMeshError
  | MagicError => Some SQLMeshError
  | AuditConfigError => Some ConfigError
  | AuditError => Some SQLMeshError
  | TestError => Some SQLMeshError
  | NotificationTargetError => Some SQLMeshError
  | ApiError => Some SQLMeshError
  | ApiClientError => Some ApiError
  | ApiServerError => Some ApiError
  | NotFoundError => Some ApiClientError
  | CICDBotError => Some SQLMeshError
  | ParsetimeAdapterCallError => Some SQLMeshError
  | EngineAdapterError => Some SQLMeshError
  | UnsupportedCatalogOperationError => Some EngineAdapterError
  | CircuitBreakerError => Some SQLMeshError
  | PythonModelEvalError => Some SQLMeshError
  end.

(** Every class of the module, in the order of the file. *)
Definition module_classes : list ErrorClass :=
  [ SQLMeshError; ConfigError; MissingDependencyError; MacroEvalError;
    PlanError; NoChangesPlanError; UncategorizedPlanError;
    ConflictingPlanError; MissingContextException; SnapshotVersionError;
    MagicError; AuditConfigError; AuditError; TestError;
    NotificationTargetError; ApiError; ApiClientError; ApiServerError;
    NotFoundError; CICDBotError; ParsetimeAdapterCallError;
    EngineAdapterError; UnsupportedCatalogOperationError;
    CircuitBreakerError; PythonModelEvalError ].

(** The method resolution order of a class: the class, then its bases up
    to [Exception].  The chain is followed for at most [fuel] links. *)
Fixpoint mro_upto (fuel : nat) (c : ErrorClass) : list ErrorClass :=
  match fuel with
  | O => [c]
  | S fuel' =>
      match base c with
      | None => [c]
      | Some b => c :: mro_upto fuel' b
      end
  end.

Definition mro (c : ErrorClass) : list ErrorClass :=
  mro_upto (List.length module_classes) c.

(** [issubclass c d]: what an [except d] handler asks of a raised
    instance of class [c]. *)
Definition issubclass (c d : ErrorClass) : bool :=
  existsb (ErrorClass_beq d) (mro c).

(** ** Values read by the module *)

(** Truthiness of a [str] and of an [Optional[str]]: [None] and the empty
    string are falsy. *)
Definition truthy_str (s : string) : bool := negb (String.eqb s "").

Definition truthy (o : option string) : bool :=
  match o with
  | Some s => truthy_str s
  | None => false
  end.

(** [a or b] on [Optional[str]] operands. *)
Definition py_or (a b : option string) : option string :=
  if truthy a then a else b.

(** [str(n)] of an [int]. *)
Definition str_int (n : Z) : string := NilZero.string_of_int (Z.to_int n).

(** A replacement field [{x}] of an f-string for an [Optional[str]]. *)
Definition format_opt (o : option string) : string :=
  match o with
  | Some s => s
  | None => "None"
  end.

Definition newline : string := String (ascii_of_nat 10) EmptyString.

(** [pathlib.Path]: the module formats it with [str] and tests it for
    truth, and a path is always truthy. *)
Record Path : Set := { Path_str : string }.

(** The [str | Path] of [raise_config_error]'s [location]. *)
Inductive Location : Set :=
| LocStr (s : string)
| LocPath (p : Path).

Definition truthy_location (l : option Location) : bool :=
  match l with
  | None => false
  | Some (LocStr s) => truthy_str s
  | Some (LocPath _) => true
  end.

Definition format_location (l : option Location) : string :=
  match l with
  | None => "None"
  | Some (LocStr s) => s
  | Some (LocPath p) => Path_str p
  end.

(** [sqlmesh.core.model.Model]: read through [name] only; a model object
    is truthy. *)
Record Model : Set := { name : string }.

(** Values of the generator options forwarded by [AuditError.sql]. *)
Inductive OptValue : Set :=
| OptNone
| OptBool (b : bool)
| OptInt (n : Z)
| OptStr (s : string).

Definition Opts : Set := list (string * OptValue).

(** [sqlglot.exp.Query]: used through [query.sql(dialect=..., **opts)]
    only. *)
Record Query : Set := { Query_sql : option string -> Opts -> string }.

(** [requests.models.Response]: [raise_for_status] reads [status_code]
    and [text]; the other fields stand for the rest of the response. *)
Record Response : Set := {
  status_code : Z;
  text : string;
  reason : string;
  url : string;
  headers : list (string * string)
}.

(** ** Instances *)

(** The attributes [AuditError.__init__] stores. *)
Record AuditError_t : Set := {
  audit_name : string;
  model : option Model;
  count : Z;
  query : Query;
  adapter_dialect : option string
}.

(** An exception instance.
    - [Exn cls args]: an instance of [cls] initialised by
      [Exception.__init__], which stores its arguments as [args];
    - [ApiExn cls message code]: initialised by [ApiError.__init__];
    - [AuditExn e]: an [AuditError];
    - [CallError]: the [TypeError] of a call that does not fit the
      signature of [__init__]. *)
Inductive exn : Set :=
| Exn (cls : ErrorClass) (args : list string)
| ApiExn (cls : ErrorClass) (message : string) (code : Z)
| AuditExn (e : AuditError_t)
| CallError.

Definition class_of (e : exn) : ErrorClass :=
  match e with
  | Exn cls _ => cls
  | ApiExn cls _ _ => cls
  | AuditExn _ => AuditError
  | CallError => TypeError
  end.

(** The [code] attribute, where the instance has one. *)
Definition code_of (e : exn) : option Z :=
  match e with
  | ApiExn _ _ code => Some code
  | _ => None
  end.

(** What a call does: it returns a value or raises. *)
Inductive outcome (A : Type) : Type :=
| Return (a : A)
| Raise (e : exn).

Arguments Return {A} a.
Arguments Raise {A} e.

(** ** Calls and signatures *)

Section Binding.
Context {V : Type}.

(** A parameter of an [__init__] after [self]: its name and whether it
    has a default. *)
Record param : Set := { p_name : string; p_optional : bool }.

Fixpoint lookup_kw (k : string) (kwargs : list (string * V)) : option V :=
  match kwargs with
  | [] => None
  | (k', v) :: rest => if String.eqb k k' then Some v else lookup_kw k rest
  end.

Fixpoint remove_kw (k : string) (kwargs : list (string * V)) : list (string * V) :=
  match kwargs with
  | [] => []
  | (k', v) :: rest =>
      if String.eqb k k' then remove_kw k rest else (k', v) :: remove_kw k rest
  end.

(** Binding of the positional arguments [args] and keyword arguments
    [kwargs] of a call to the parameters [params].  [Some vs] gives one
    entry per parameter, [None] in it where the default applies; the
    result is [None] when the interpreter raises [TypeError]: too many
    positional arguments, a parameter given twice, an unknown keyword,
    or a parameter without default left unfilled. *)
Fixpoint bind_args (params : list param) (args : list V)
         (kwargs : list (string * V)) : option (list (option V)) :=
  match params with
  | [] =>
      match args, kwargs with
      | [], [] => Some []
      | _, _ => None
      end
  | p :: params' =>
      match args with
      | a :: args' =>
          match lookup_kw (p_name p) kwargs with
          | Some _ => None
          | None => option_map (cons (Some a)) (bind_args params' args' kwargs)
          end
      | [] =>
          match lookup_kw (p_name p) kwargs with
          | Some v =>
              option_map (cons (Some v))
                         (bind_args params' [] (remove_kw (p_name p) kwargs))
          | None =>
              if p_optional p
              then option_map (cons None) (bind_args params' [] kwargs)
              else None
          end
      end
  end.
End Binding.

Definition required (n : string) : param := {| p_name := n; p_optional := false |}.
Definition optional (n : string) : param := {| p_name := n; p_optional := true |}.

(** The parameters of the [__init__] a class defines in its own body;
    [None] for a class whose body defines none. *)
Definition own_init (c : ErrorClass) : option (list param) :=
  match c with
  | AuditError =>
      Some [ required "audit_name"; required "count"; required "query";
             optional "model"; optional "adapter_dialect" ]
  | ApiError => Some [ required "message"; required "code" ]
  | NotFoundError => Some [ required "message" ]
  | CircuitBreakerError => Some []
  | _ => None
  end.

(** The class whose [__init__] a call [cls(...)] runs: the first class of
    the resolution order that defines one, [Exception] when none does. *)
Fixpoint find_init (l : list ErrorClass) : ErrorClass :=
  match l with
  | [] => Exception
  | c :: rest =>
      match own_init c with
      | Some _ => c
      | None => find_init rest
      end
  end.

Definition resolve_init (cls : ErrorClass) : ErrorClass := find_init (mro cls).

(** ** Initialisers *)

(** [ApiError.__init__(self, message, code)], for [self] of class [cls]. *)
Definition ApiError_init (cls : ErrorClass) (message : string) (code : Z) : exn :=
  ApiExn cls message code.

(** [NotFoundError.__init__(self, message)]. *)
Definition NotFoundError_init (message : string) : exn :=
  ApiError_init NotFoundError message 404.

(** [CircuitBreakerError.__init__(self)]. *)
Definition CircuitBreakerError_init : exn :=
  Exn CircuitBreakerError ["Circuit breaker triggered."].

(** [AuditError.__init__], with [model] and [adapter_dialect] defaulting
    to [None]. *)
Definition AuditError_init (audit_name : string) (count : Z) (query : Query)
           (model : option Model) (adapter_dialect : option string) : AuditError_t :=
  {| audit_name := audit_name;
     model := model;
     count := count;
     query := query;
     adapter_dialect := adapter_dialect |}.

(** The call of [NotFoundError] with positional arguments [args] and
    keyword arguments [kwargs]. *)
Definition NotFoundError_call (args : list string)
           (kwargs : list (string * string)) : outcome exn :=
  match bind_args [required "message"] args kwargs with
  | Some [Some message] => Return (NotFoundError_init message)
  | _ => Raise CallError
  end.

(** The call of [CircuitBreakerError] with positional arguments [args]
    and keyword arguments [kwargs], of any type. *)
Definition CircuitBreakerError_call {V : Type} (args : list V)
           (kwargs : list (string * V)) : outcome exn :=
  match bind_args [] args kwargs with
  | Some _ => Return CircuitBreakerError_init
  | None => Raise CallError
  end.

(** The call [cls(message)] with one positional [str].  A class that
    takes [Exception.__init__] stores the argument.  Of the initialisers
    the module defines, [NotFoundError]'s alone binds a single positional
    argument; the others raise [TypeError]. *)
Definition instantiate (cls : ErrorClass) (message : string) : outcome exn :=
  let init := resolve_init cls in
  match own_init init with
  | None => Return (Exn cls [message])
  | Some params =>
      match bind_args params [message] [], init with
      | Some [Some m], NotFoundError => Return (NotFoundError_init m)
      | _, _ => Raise CallError
      end
  end.

(** ** AuditError *)

(** The property [model_name]. *)
Definition AuditError_model_name (self : AuditError_t) : option string :=
  match model self with
  | Some m => Some (name m)
  | None => None
  end.

(** [AuditError.sql(self, dialect=None, **opts)]. *)
Definition AuditError_sql (self : AuditError_t) (dialect : option string)
           (opts : Opts) : string :=
  Query_sql (query self) (py_or dialect (adapter_dialect self)) opts.

(** [AuditError.__str__]. *)
Definition AuditError_str (self : AuditError_t) : string :=
  let model_str :=
    if truthy (AuditError_model_name self)
    then " for model '" ++ format_opt (AuditError_model_name self) ++ "'"
    else "" in
  "Audit '" ++ audit_name self ++ "'" ++ model_str ++ " failed." ++ newline
    ++ "Got " ++ str_int (count self) ++ " results, expected 0." ++ newline
    ++ AuditError_sql self None [].

(** ** The raising helpers *)

(** [raise_config_error(msg, location=None, error_type=ConfigError)]; a
    call that leaves [error_type] out passes [ConfigError]. *)
Definition raise_config_error (msg : string) (location : option Location)
           (error_type : ErrorClass) : outcome unit :=
  if truthy_location location
  then
    match instantiate error_type (msg ++ " at '" ++ format_location location ++ "'") with
    | Return e => Raise e
    | Raise e => Raise e
    end
  else
    match instantiate error_type msg with
    | Return e => Raise e
    | Raise e => Raise e
    end.

(** [raise_for_status(response)]. *)
Definition raise_for_status (response : Response) : outcome unit :=
  if status_code response =? 404
  then Raise (NotFoundError_init (text response))
  else if (400 <=? status_code response) && (status_code response <? 500)
  then Raise (ApiError_init ApiClientError (text response) (status_code response))
  else if (500 <=? status_code response) && (status_code response <? 600)
  then Raise (ApiError_init ApiServerError (text response) (status_code response))
  else Return tt.

(** [except handler:] catches the raised instance [e]. *)
Definition catches (handler : ErrorClass) (e : exn) : bool :=
  issubclass (class_of e) handler.

(** ** The documented taxonomy *)

(** The leaf kinds of the documented domain table, row by row, under the
    names of their classes: the table's [AuditFailure] is [AuditError],
    and its [NoChangesPlan], [UncategorizedPlan], [ConflictingPlan],
    [UnsupportedCatalogOperation] and [MissingDependency] are the classes
    of these names with the suffix [Error]. *)
Definition config_leaves : list ErrorClass := [ConfigError; AuditConfigError].

Definition planning_leaves : list ErrorClass :=
  [NoChangesPlanError; UncategorizedPlanError; ConflictingPlanError].

Definition audit_leaves : list ErrorClass := [AuditError].

Definition api_leaves : list ErrorClass :=
  [ApiClientError; ApiServerError; NotFoundError].

Definition engine_adapter_leaves : list ErrorClass :=
  [EngineAdapterError; UnsupportedCatalogOperationError].

Definition misc_leaves : list ErrorClass :=
  [ MissingDependencyError; MacroEvalError; SnapshotVersionError; MagicError;
    TestError; NotificationTargetError; CICDBotError;
    ParsetimeAdapterCallError; CircuitBreakerError; PythonModelEvalError ].

Definition domain_table : list ErrorClass :=
  config_leaves ++ planning_leaves ++ audit_leaves ++ api_leaves
    ++ engine_adapter_leaves ++ misc_leaves.

(** The leaves of the table an [except handler:] clause catches. *)
Definition caught_leaves (handler : ErrorClass) : list ErrorClass :=
  filter (fun c => issubclass c handler) domain_table.

(** The audit message as documented: the [for model] clause whenever a
    model is attached. *)
Definition documented_audit_message (self : AuditError_t) : string :=
  "Audit '" ++ audit_name self ++ "'"
    ++ match model self with
       | Some m => " for model '" ++ name m ++ "'"
       | None => ""
       end
    ++ " failed." ++ newline
    ++ "Got " ++ str_int (count self) ++ " results, expected 0." ++ newline
    ++ AuditError_sql self None [].

(** The dialect of the documented three tiers: the caller's whenever one
    is supplied, else the stored one. *)
Definition documented_dialect (self : AuditError_t) (dialect : option string)
  : option string :=
  match dialect with
  | Some d => Some d
  | None => adapter_dialect self
  end.

(** ** Sample values *)

(** A query whose rendering shows the dialect it was given. *)
Definition sample_query : Query :=
  {| Query_sql := fun dialect opts =>
       match dialect with
       | Some d => "SELECT 1 AS " ++ d
       | None => "SELECT 1"
       end |}.

Definition sample_response (status : Z) (body : string) : Response :=
  {| status_code := status; text := body; reason := "";
     url := "http://localhost/api"; headers := [] |}.

(** ** Attribute assignment *)

(** The assignment [e.code = code] made on an instance after its
    construction.  [ApiError.__init__] stores [code] with [self.code =
    code], a plain instance attribute that no property or [__slots__]
    guards, so the assignment replaces it and leaves the class and the
    message as they are.  [None] stands for the instances the model keeps
    no [code] attribute for, those of the classes outside the API
    group. *)
Definition set_code (e : exn) (code : Z) : option exn :=
  match e with
  | ApiExn cls message _ => Some (ApiExn cls message code)
  | _ => None
  end.

(** ** Handlers *)

(** The classes of the model: the two builtins and those of the
    module. *)
Definition all_classes : list ErrorClass :=
  Exception :: TypeError :: module_classes.

(** The classes that head a group of the hierarchy, one handler each. *)
Definition group_roots : list ErrorClass :=
  [ConfigError; PlanError; AuditError; ApiError; EngineAdapterError].

(** The classes of the module whose instances a call with a message
    alone cannot construct: their initialiser wants more, or nothing. *)
Definition not_message_only : list ErrorClass :=
  [AuditError; ApiError; ApiClientError; ApiServerError; CircuitBreakerError].

(** ** Auxiliary facts *)

Lemma truthy_str_true (s : string) : s <> "" -> truthy_str s = true.
Proof.
  intros Hs. unfold truthy_str.
  apply negb_true_iff, String.eqb_neq. exact Hs.
Qed.

Lemma py_or_left (a b : option string) : truthy a = true -> py_or a b = a.
Proof. intros H. unfold py_or. rewrite H. reflexivity. Qed.

(** The Config family of the module. *)
Lemma config_family (c : ErrorClass) :
  issubclass c ConfigError = true -> c = ConfigError \/ c = AuditConfigError.
Proof.
  destruct c; vm_compute; intros H; try discriminate H; auto.
Qed.

(** A Config-family class is initialised by [Exception.__init__]. *)
Lemma instantiate_config (c : ErrorClass) (m : string) :
  issubclass c ConfigError = true -> instantiate c m = Return (Exn c [m]).
Proof.
  intros H. destruct (config_family c H); subst c; reflexivity.
Qed.

Lemma raise_config_error_unfold (msg : string) (location : option Location)
      (c : ErrorClass) :
  issubclass c ConfigError = true ->
  raise_config_error msg location c =
    Raise (Exn c [if truthy_location location
                  then msg ++ " at '" ++ format_location location ++ "'"
                  else msg]).
Proof.
  intros H. unfold raise_config_error.
  destruct (truthy_location location); rewrite (instantiate_config c _ H);
    reflexivity.
Qed.

(** The three status tests of [raise_for_status] raise, and nothing else
    does. *)
Lemma raise_for_status_cases (r : Response) :
  (status_code r = 404 /\
   raise_for_status r = Raise (ApiExn NotFoundError (text r) 404))
  \/ (status_code r <> 404 /\ 400 <= status_code r < 500 /\
      raise_for_status r = Raise (ApiExn ApiClientError (text r) (status_code r)))
  \/ (500 <= status_code r < 600 /\
      raise_for_status r = Raise (ApiExn ApiServerError (text r) (status_code r)))
  \/ ((status_code r < 400 \/ 600 <= status_code r) /\
      raise_for_status r = Return tt).
Proof.
  unfold raise_for_status, NotFoundError_init, ApiError_init.
  destruct (Z.eqb_spec (status_code r) 404) as [E | N].
  - left. split; [exact E | reflexivity].
  - destruct (Z.leb_spec 400 (status_code r)) as [L4 | L4];
      destruct (Z.ltb_spec (status_code r) 500) as [U5 | U5]; simpl.
    + right; left. repeat split; assumption.
    + destruct (Z.leb_spec 500 (status_code r)) as [L5 | L5];
        destruct (Z.ltb_spec (status_code r) 600) as [U6 | U6]; simpl.
      * right; right; left. repeat split; assumption.
      * right; right; right. split; [right; assumption | reflexivity].
      * lia.
      * lia.
    + right; right; right.
      destruct (Z.leb_spec 500 (status_code r)) as [L5 | L5]; [lia |].
      simpl. split; [left; assumption | reflexivity].
    + lia.
Qed.

(** The message of an [AuditError], clause by clause. *)
Lemma AuditError_str_unfold (self : AuditError_t) :
  AuditError_str self =
    "Audit '" ++ audit_name self ++ "'"
      ++ match model self with
         | Some m => if truthy_str (name m)
                     then " for model '" ++ name m ++ "'"
                     else ""
         | None => ""
         end
      ++ " failed." ++ newline
      ++ "Got " ++ str_int (count self) ++ " results, expected 0." ++ newline
      ++ Query_sql (query self) (adapter_dialect self) [].
Proof.
  unfold AuditError_str, AuditError_sql, AuditError_model_name, py_or.
  destruct (model self) as [m |]; reflexivity.
Qed.

(** Reads the attributes of a freshly initialised [AuditError]. *)
Ltac audit_fields :=
  cbn [AuditError_init audit_name model count query adapter_dialect].

(** ** raise_for_status *)

(** C1.  [raise_for_status] partitions the status codes: 404 raises
    [NotFoundError] with the body as message (and code 404); a status in
    [400, 500) other than 404 raises [ApiClientError] with the body and
    that status; a status in [500, 600) raises [ApiServerError] with the
    body and that status; any other status returns normally.  Whatever is
    raised is an API error. *)
Theorem raise_for_status_partition (response : Response) :
  (status_code response = 404 ->
   raise_for_status response = Raise (ApiExn NotFoundError (text response) 404))
  /\ (400 <= status_code response < 500 -> status_code response <> 404 ->
      raise_for_status response =
        Raise (ApiExn ApiClientError (text response) (status_code response)))
  /\ (500 <= status_code response < 600 ->
      raise_for_status response =
        Raise (ApiExn ApiServerError (text response) (status_code response)))
  /\ (status_code response < 400 \/ 600 <= status_code response ->
      raise_for_status response = Return tt)
  /\ (forall e, raise_for_status response = Raise e ->
                catches ApiError e = true /\ catches SQLMeshError e = true).
Proof.
  destruct (raise_for_status_cases response)
    as [[S E] | [[N [B E]] | [[B E] | [B E]]]]; rewrite E;
    repeat split; intros; try lia; try reflexivity;
    match goal with
    | H : Raise _ = Raise _ |- _ => injection H as <-; reflexivity
    | H : Return _ = Raise _ |- _ => discriminate H
    | _ => idtac
    end.
  all: try (rewrite S; reflexivity).
Qed.

Lemma raise_for_status_partition_witness :
  raise_for_status (sample_response 404 "no such plan")
    = Raise (ApiExn NotFoundError "no such plan" 404)
  /\ raise_for_status (sample_response 418 "teapot")
     = Raise (ApiExn ApiClientError "teapot" 418)
  /\ raise_for_status (sample_response 503 "down")
     = Raise (ApiExn ApiServerError "down" 503)
  /\ raise_for_status (sample_response 200 "ok") = Return tt
  /\ raise_for_status (sample_response 600 "odd") = Return tt.
Proof.
  split; [| split; [| split; [| split]]].
  - apply (proj1 (raise_for_status_partition (sample_response 404 "no such plan"))).
    reflexivity.
  - apply (proj1 (proj2 (raise_for_status_partition (sample_response 418 "teapot"))));
      simpl; lia.
  - apply (proj1 (proj2 (proj2 (raise_for_status_partition (sample_response 503 "down")))));
      simpl; lia.
  - apply (proj1 (proj2 (proj2 (proj2 (raise_for_status_partition (sample_response 200 "ok"))))));
      simpl; lia.
  - apply (proj1 (proj2 (proj2 (proj2 (raise_for_status_partition (sample_response 600 "odd"))))));
      simpl; lia.
Defined.

(** ** raise_config_error *)

(** C2.  [raise_config_error] never returns normally.  For a requested
    class of the Config family it raises an instance of that class whose
    message is the given one followed by [ at '<location>'] when the
    location is present and non-empty, and the given one verbatim when
    the location is [None] or the empty string. *)
Theorem raise_config_error_raises (msg : string) (error_type : ErrorClass) :
  (forall location,
      exists e, raise_config_error msg location error_type = Raise e)
  /\ (issubclass error_type ConfigError = true ->
      raise_config_error msg None error_type = Raise (Exn error_type [msg])
      /\ raise_config_error msg (Some (LocStr "")) error_type
         = Raise (Exn error_type [msg])
      /\ (forall s, s <> "" ->
          raise_config_error msg (Some (LocStr s)) error_type
          = Raise (Exn error_type [msg ++ " at '" ++ s ++ "'"]))
      /\ (forall p,
          raise_config_error msg (Some (LocPath p)) error_type
          = Raise (Exn error_type [msg ++ " at '" ++ Path_str p ++ "'"]))).
Proof.
  split.
  - intros location. unfold raise_config_error.
    destruct (truthy_location location);
      match goal with
      | |- context [instantiate ?c ?m] => destruct (instantiate c m) as [e | e]
      end; exists e; reflexivity.
  - intros Hfam. split; [| split; [| split]].
    + rewrite (raise_config_error_unfold _ _ _ Hfam). reflexivity.
    + rewrite (raise_config_error_unfold _ _ _ Hfam). reflexivity.
    + intros s Hs. rewrite (raise_config_error_unfold _ _ _ Hfam).
      simpl. rewrite (truthy_str_true s Hs). reflexivity.
    + intros p. rewrite (raise_config_error_unfold _ _ _ Hfam). reflexivity.
Qed.

Lemma raise_config_error_raises_witness :
  issubclass AuditConfigError ConfigError = true
  /\ raise_config_error "unknown field" None AuditConfigError
     = Raise (Exn AuditConfigError ["unknown field"])
  /\ raise_config_error "unknown field" (Some (LocStr "")) AuditConfigError
     = Raise (Exn AuditConfigError ["unknown field"])
  /\ raise_config_error "unknown field" (Some (LocStr "models/orders.sql"))
       AuditConfigError
     = Raise (Exn AuditConfigError ["unknown field at 'models/orders.sql'"])
  /\ raise_config_error "unknown field"
       (Some (LocPath {| Path_str := "audits/a.sql" |})) AuditConfigError
     = Raise (Exn AuditConfigError ["unknown field at 'audits/a.sql'"]).
Proof.
  split; [reflexivity |].
  destruct (proj2 (raise_config_error_raises "unknown field" AuditConfigError)
              eq_refl) as [Hnone [Hempty [Hstr Hpath]]].
  split; [exact Hnone |].
  split; [exact Hempty |].
  split.
  - apply (Hstr "models/orders.sql"). discriminate.
  - apply (Hpath {| Path_str := "audits/a.sql" |}).
Defined.

(** ** AuditError *)

(** C3, as stated, fails: a model whose name is the empty string is
    attached, and the message has no [for model] clause. *)
Lemma audit_message_counterexample :
  let e := AuditError_init "a1" 3 sample_query (Some {| name := "" |}) None in
  model e = Some {| name := "" |}
  /\ AuditError_str e
     = "Audit 'a1' failed." ++ newline ++ "Got 3 results, expected 0."
         ++ newline ++ "SELECT 1"
  /\ AuditError_str e <> documented_audit_message e.
Proof.
  split; [reflexivity |]. split; [reflexivity |].
  intros H. vm_compute in H. discriminate H.
Qed.

(** C3, amended.  With a model of non-empty name attached, the message is
    [Audit '<name>' for model '<model>' failed.], a line break,
    [Got <count> results, expected 0.], a line break, and the query
    rendered in the stored adapter dialect; with no model attached the
    [for model] clause is left out. *)
Theorem audit_message_format (audit : string) (n : Z) (q : Query)
        (adapter : option string) :
  (forall m, name m <> "" ->
     AuditError_str (AuditError_init audit n q (Some m) adapter)
     = "Audit '" ++ audit ++ "'" ++ (" for model '" ++ name m ++ "'")
         ++ " failed." ++ newline
         ++ "Got " ++ str_int n ++ " results, expected 0." ++ newline
         ++ Query_sql q adapter [])
  /\ AuditError_str (AuditError_init audit n q None adapter)
     = "Audit '" ++ audit ++ "'" ++ " failed." ++ newline
         ++ "Got " ++ str_int n ++ " results, expected 0." ++ newline
         ++ Query_sql q adapter [].
Proof.
  split.
  - intros m Hm. rewrite AuditError_str_unfold. audit_fields.
    rewrite (truthy_str_true _ Hm). reflexivity.
  - rewrite AuditError_str_unfold. reflexivity.
Qed.

Lemma audit_message_format_witness :
  AuditError_str
    (AuditError_init "a1" 3 sample_query (Some {| name := "orders" |})
                     (Some "duckdb"))
  = "Audit 'a1' for model 'orders' failed." ++ newline
      ++ "Got 3 results, expected 0." ++ newline ++ "SELECT 1 AS duckdb".
Proof.
  apply (proj1 (audit_message_format "a1" 3 sample_query (Some "duckdb"))
           {| name := "orders" |}).
  discriminate.
Defined.

(** C9.  The [for model] clause appears exactly when a model is attached
    and its name is non-empty: an attached model with an empty name gives
    the message of an error with no model. *)
Theorem audit_message_clause (audit : string) (n : Z) (q : Query)
        (adapter : option string) (m : Model) :
  (name m = "" ->
     AuditError_str (AuditError_init audit n q (Some m) adapter)
     = AuditError_str (AuditError_init audit n q None adapter))
  /\ (name m <> "" ->
      AuditError_str (AuditError_init audit n q (Some m) adapter)
      = "Audit '" ++ audit ++ "'" ++ (" for model '" ++ name m ++ "'")
          ++ " failed." ++ newline
          ++ "Got " ++ str_int n ++ " results, expected 0." ++ newline
          ++ Query_sql q adapter [])
  /\ AuditError_str (AuditError_init audit n q None adapter)
     = "Audit '" ++ audit ++ "'" ++ " failed." ++ newline
         ++ "Got " ++ str_int n ++ " results, expected 0." ++ newline
         ++ Query_sql q adapter [].
Proof.
  split; [| split].
  - intros Hm. rewrite !AuditError_str_unfold. audit_fields.
    rewrite Hm. reflexivity.
  - intros Hm. rewrite AuditError_str_unfold. audit_fields.
    rewrite (truthy_str_true _ Hm). reflexivity.
  - rewrite AuditError_str_unfold. reflexivity.
Qed.

Lemma audit_message_clause_witness :
  AuditError_str
    (AuditError_init "a1" 3 sample_query (Some {| name := "" |}) (Some "duckdb"))
  = AuditError_str (AuditError_init "a1" 3 sample_query None (Some "duckdb"))
  /\ AuditError_str
       (AuditError_init "a1" 3 sample_query (Some {| name := "orders" |}) None)
     = "Audit 'a1' for model 'orders' failed." ++ newline
         ++ "Got 3 results, expected 0." ++ newline ++ "SELECT 1".
Proof.
  split.
  - apply (proj1 (audit_message_clause "a1" 3 sample_query (Some "duckdb")
                    {| name := "" |})).
    reflexivity.
  - apply (proj1 (proj2 (audit_message_clause "a1" 3 sample_query None
                           {| name := "orders" |}))).
    discriminate.
Defined.

(** C4, as stated, fails: the caller supplies the empty string as
    dialect, and the query is rendered in the stored adapter dialect. *)
Lemma audit_sql_counterexample :
  let e := AuditError_init "a1" 3 sample_query None (Some "spark") in
  AuditError_sql e (Some "") [] = "SELECT 1 AS spark"
  /\ AuditError_sql e (Some "") []
     <> Query_sql (query e) (documented_dialect e (Some "")) [].
Proof.
  split; [reflexivity |].
  intros H. vm_compute in H. discriminate H.
Qed.

(** C4, amended.  [sql] picks the dialect in three tiers: a non-empty
    dialect supplied by the caller is used; with no dialect supplied the
    adapter dialect stored at construction is used; with both absent the
    query is rendered with no dialect, its default rendering. *)
Theorem audit_sql_tiers (self : AuditError_t) (opts : Opts) :
  (forall d, d <> "" ->
     AuditError_sql self (Some d) opts = Query_sql (query self) (Some d) opts)
  /\ AuditError_sql self None opts
     = Query_sql (query self) (adapter_dialect self) opts
  /\ (adapter_dialect self = None ->
      AuditError_sql self None opts = Query_sql (query self) None opts).
Proof.
  unfold AuditError_sql. split; [| split].
  - intros d Hd. rewrite py_or_left; [reflexivity |].
    simpl. apply truthy_str_true, Hd.
  - reflexivity.
  - intros ->. reflexivity.
Qed.

Lemma audit_sql_tiers_witness :
  AuditError_sql (AuditError_init "a1" 3 sample_query None (Some "spark"))
                 (Some "duckdb") [("pretty", OptBool true)]
  = "SELECT 1 AS duckdb"
  /\ AuditError_sql (AuditError_init "a1" 3 sample_query None None)
                    None [("pretty", OptBool true)]
     = "SELECT 1".
Proof.
  split.
  - apply (proj1 (audit_sql_tiers
                    (AuditError_init "a1" 3 sample_query None (Some "spark"))
                    [("pretty", OptBool true)]) "duckdb").
    discriminate.
  - apply (proj2 (proj2 (audit_sql_tiers
                           (AuditError_init "a1" 3 sample_query None None)
                           [("pretty", OptBool true)]))).
    reflexivity.
Defined.

(** C10.  An explicit empty-string dialect is treated as no dialect:
    [sql] renders in the stored adapter dialect, and with no dialect at
    all when none was stored. *)
Theorem audit_sql_empty_dialect (self : AuditError_t) (opts : Opts) :
  AuditError_sql self (Some "") opts = AuditError_sql self None opts
  /\ AuditError_sql self (Some "") opts
     = Query_sql (query self) (adapter_dialect self) opts
  /\ (adapter_dialect self = None ->
      AuditError_sql self (Some "") opts = Query_sql (query self) None opts).
Proof.
  unfold AuditError_sql. split; [| split].
  - reflexivity.
  - reflexivity.
  - intros ->. reflexivity.
Qed.

Lemma audit_sql_empty_dialect_witness :
  AuditError_sql (AuditError_init "a1" 3 sample_query None None) (Some "") []
  = "SELECT 1".
Proof.
  apply (proj2 (proj2 (audit_sql_empty_dialect
                         (AuditError_init "a1" 3 sample_query None None) []))).
  reflexivity.
Defined.

(** ** Constructors *)

(** C5, as stated, fails: the code of a [NotFoundError] is settable.  An
    assignment to the attribute after construction gives a
    [NotFoundError] whose code is 500. *)
Lemma NotFoundError_code_counterexample :
  set_code (NotFoundError_init "no such environment") 500
  = Some (ApiExn NotFoundError "no such environment" 500)
  /\ class_of (ApiExn NotFoundError "no such environment" 500) = NotFoundError
  /\ code_of (ApiExn NotFoundError "no such environment" 500) <> Some 404.
Proof.
  split; [reflexivity |]. split; [reflexivity | discriminate].
Qed.

(** C5, amended.  The code of a [NotFoundError] is fixed at 404 at
    construction: its initialiser takes the message alone, every call
    that constructs one yields code 404, and a call that passes a code,
    by position or by keyword, constructs nothing.  The code is not
    protected afterwards: an assignment to the attribute replaces it. *)
Theorem NotFoundError_code (message : string) :
  NotFoundError_init message = ApiExn NotFoundError message 404
  /\ NotFoundError_call [message] [] = Return (NotFoundError_init message)
  /\ NotFoundError_call [] [("message", message)]
     = Return (NotFoundError_init message)
  /\ (forall args kwargs e,
         NotFoundError_call args kwargs = Return e ->
         class_of e = NotFoundError /\ code_of e = Some 404)
  /\ (forall code, NotFoundError_call [message; code] [] = Raise CallError)
  /\ (forall code, NotFoundError_call [message] [("code", code)] = Raise CallError)
  /\ (forall code,
        set_code (NotFoundError_init message) code
        = Some (ApiExn NotFoundError message code)).
Proof.
  split; [reflexivity |]. split; [reflexivity |]. split; [reflexivity |].
  split; [| split; [| split]; intros code; reflexivity].
  intros args kwargs e H. unfold NotFoundError_call in H.
  destruct (bind_args _ args kwargs) as [[| [m |] [| ? ?]] |];
    try discriminate H.
  injection H as <-. split; reflexivity.
Qed.

Lemma NotFoundError_code_witness :
  code_of (NotFoundError_init "no such environment") = Some 404.
Proof.
  apply (proj1 (proj2 (proj2 (proj2 (NotFoundError_code "no such environment"))))
           [] [("message", "no such environment")]).
  reflexivity.
Defined.

(** C6, as stated, fails: the constructor takes no argument, and a call
    that passes a text raises [TypeError] instead of constructing the
    error. *)
Lemma CircuitBreakerError_counterexample :
  CircuitBreakerError_call ["stop now"] [] = Raise CallError
  /\ CircuitBreakerError_call ["stop now"] []
     <> Return (Exn CircuitBreakerError ["Circuit breaker triggered."]).
Proof.
  split; [reflexivity | discriminate].
Qed.

(** C6, amended.  A [CircuitBreakerError] is constructed by a call
    without arguments, and its message is then exactly
    [Circuit breaker triggered.]; a call that passes any argument, by
    position or by keyword, raises [TypeError], so that no constructed
    instance carries a text of the caller. *)
Theorem CircuitBreakerError_message {V : Type} (args : list V)
        (kwargs : list (string * V)) :
  (args = [] -> kwargs = [] ->
   CircuitBreakerError_call args kwargs
   = Return (Exn CircuitBreakerError ["Circuit breaker triggered."]))
  /\ (args <> [] \/ kwargs <> [] ->
      CircuitBreakerError_call args kwargs = Raise CallError)
  /\ (forall e, CircuitBreakerError_call args kwargs = Return e ->
                e = Exn CircuitBreakerError ["Circuit breaker triggered."]).
Proof.
  unfold CircuitBreakerError_call, CircuitBreakerError_init.
  split; [| split].
  - intros -> ->. reflexivity.
  - intros H. destruct args, kwargs; simpl; try reflexivity.
    destruct H as [H | H]; contradiction H; reflexivity.
  - intros e H. destruct (bind_args [] args kwargs); [| discriminate H].
    injection H as <-. reflexivity.
Qed.

Lemma CircuitBreakerError_message_witness :
  @CircuitBreakerError_call string [] []
  = Return (Exn CircuitBreakerError ["Circuit breaker triggered."])
  /\ CircuitBreakerError_call [] [("message", 7)] = Raise CallError.
Proof.
  split.
  - apply (proj1 (@CircuitBreakerError_message string [] [])); reflexivity.
  - apply (proj1 (proj2 (CircuitBreakerError_message [] [("message", 7)]))).
    right. discriminate.
Defined.

(** ** The hierarchy *)

(** C7.  Every kind of the domain table is a subclass of the root
    [SQLMeshError]; a handler for the Config family, the planning group,
    the API group or the engine-adapter group catches of the table the
    leaves of that group and no other; [MissingContextException] is not
    a subclass of the root, and it is the only class of the module that
    is not, so a handler for the root does not catch an instance of
    it; the only classes that catch it are itself and the builtin
    [Exception]. *)
Theorem taxonomy_root :
  caught_leaves SQLMeshError = domain_table
  /\ caught_leaves ConfigError = config_leaves
  /\ caught_leaves PlanError = planning_leaves
  /\ caught_leaves ApiError = api_leaves
  /\ caught_leaves EngineAdapterError = engine_adapter_leaves
  /\ issubclass MissingContextException SQLMeshError = false
  /\ (forall c, In c module_classes ->
        (issubclass c SQLMeshError = false <-> c = MissingContextException))
  /\ (forall e, class_of e = MissingContextException ->
        catches SQLMeshError e = false)
  /\ (forall handler,
        issubclass MissingContextException handler = true <->
        handler = MissingContextException \/ handler = Exception).
Proof.
  repeat match goal with |- _ /\ _ => split end; try reflexivity.
  - intros c Hin.
    destruct c; simpl in Hin;
      try (exfalso;
           repeat (destruct Hin as [Hin | Hin]; [discriminate Hin |]);
           exact Hin);
      split; intros H; vm_compute in H; try discriminate H; reflexivity.
  - intros e He. unfold catches. rewrite He. reflexivity.
  - intros handler. split.
    + intros H. destruct handler; vm_compute in H; try discriminate H; auto.
    + intros [-> | ->]; reflexivity.
Qed.

Lemma taxonomy_root_witness :
  In MissingContextException module_classes
  /\ catches SQLMeshError (Exn MissingContextException ["no context"]) = false.
Proof.
  destruct taxonomy_root as (_ & _ & _ & _ & _ & _ & Hclass & Hcatch & _).
  split.
  - simpl. tauto.
  - apply Hcatch. reflexivity.
Defined.

(** ** Further properties *)

Lemma all_classes_complete (c : ErrorClass) : In c all_classes.
Proof. destruct c; simpl; tauto. Qed.

Lemma append_cancel_l (p a b : string) : p ++ a = p ++ b -> a = b.
Proof.
  induction p as [| ch p IH]; simpl; intros H.
  - exact H.
  - injection H as H. apply IH, H.
Qed.

Lemma append_last_cancel (ch : ascii) (a b : string) :
  a ++ String ch "" = b ++ String ch "" -> a = b.
Proof.
  revert b. induction a as [| x a IH]; intros [| y b] H; simpl in H.
  - reflexivity.
  - injection H as _ H. destruct b; discriminate H.
  - injection H as _ H. destruct a; discriminate H.
  - injection H as -> H. f_equal. apply IH, H.
Qed.

Lemma append_nonempty (p a : string) : a <> "" -> p ++ a <> p.
Proof.
  intros Ha H. apply Ha.
  apply (append_cancel_l p). rewrite H.
  clear. induction p as [| ch p IH]; simpl; [reflexivity | f_equal; exact IH].
Qed.

(** X1.  [raise_for_status] raises exactly for the statuses from 400 to
    599, and the code of the error it raises is the status code of the
    response, 404 included. *)
Theorem raise_for_status_code (response : Response) :
  ((exists e, raise_for_status response = Raise e) <->
   400 <= status_code response < 600)
  /\ (forall e, raise_for_status response = Raise e ->
        code_of e = Some (status_code response)).
Proof.
  destruct (raise_for_status_cases response)
    as [[S E] | [[N [B E]] | [[B E] | [B E]]]]; rewrite E; split.
  - split; [intros _; lia | intros _; eexists; reflexivity].
  - intros e H. injection H as <-. rewrite S. reflexivity.
  - split; [intros _; lia | intros _; eexists; reflexivity].
  - intros e H. injection H as <-. reflexivity.
  - split; [intros _; lia | intros _; eexists; reflexivity].
  - intros e H. injection H as <-. reflexivity.
  - split; [intros [e H]; discriminate H | intros H; lia].
  - intros e H. discriminate H.
Qed.

Lemma raise_for_status_code_witness :
  code_of (ApiExn ApiClientError "gone" 410) = Some 410.
Proof.
  apply (proj2 (raise_for_status_code (sample_response 410 "gone"))).
  reflexivity.
Defined.

(** X2.  Of an error raised by [raise_for_status], a handler for
    [ApiClientError] catches it exactly for the statuses from 400 to 499
    (404 among them), a handler for [ApiServerError] exactly for those
    from 500 to 599, and a handler for [NotFoundError] exactly for 404;
    no error is caught by both the client and the server handler. *)
Theorem raise_for_status_handlers (response : Response) (e : exn) :
  raise_for_status response = Raise e ->
  (catches ApiClientError e = true <-> 400 <= status_code response < 500)
  /\ (catches ApiServerError e = true <-> 500 <= status_code response < 600)
  /\ (catches NotFoundError e = true <-> status_code response = 404)
  /\ catches ApiServerError e = negb (catches ApiClientError e).
Proof.
  destruct (raise_for_status_cases response)
    as [[S E] | [[N [B E]] | [[B E] | [B E]]]]; rewrite E; intros H;
    try discriminate H; injection H as <-;
    (split; [| split; [| split]]); try reflexivity;
    split; intros H; try reflexivity; try lia;
    try (vm_compute in H; discriminate H).
Qed.

Lemma raise_for_status_handlers_witness :
  catches ApiClientError (ApiExn NotFoundError "no such plan" 404) = true
  /\ catches ApiServerError (ApiExn NotFoundError "no such plan" 404) = false.
Proof.
  destruct (raise_for_status_handlers (sample_response 404 "no such plan")
              (ApiExn NotFoundError "no such plan" 404) eq_refl)
    as (Hclient & Hserver & _ & Hexcl).
  split.
  - apply Hclient. simpl. lia.
  - rewrite Hexcl. apply negb_false_iff. apply Hclient. simpl. lia.
Defined.

(** X3.  What [raise_config_error] raises for a class of the Config
    family is caught by a handler for [ConfigError], for the root
    [SQLMeshError] and for the requested class, and by no handler for
    another group, for [MissingContextException] or for [TypeError]. *)
Theorem raise_config_error_caught (msg : string) (location : option Location)
        (error_type : ErrorClass) (e : exn) :
  issubclass error_type ConfigError = true ->
  raise_config_error msg location error_type = Raise e ->
  catches ConfigError e = true
  /\ catches SQLMeshError e = true
  /\ catches error_type e = true
  /\ (forall handler,
         In handler [PlanError; AuditError; ApiError; EngineAdapterError;
                     MissingContextException; TypeError] ->
         catches handler e = false).
Proof.
  intros Hfam H. rewrite (raise_config_error_unfold _ _ _ Hfam) in H.
  injection H as <-. unfold catches. cbn [class_of].
  destruct (config_family _ Hfam) as [-> | ->];
    (split; [reflexivity | split; [reflexivity | split; [reflexivity |]]]);
    intros handler Hin; simpl in Hin;
    repeat (destruct Hin as [<- | Hin]; [reflexivity |]); contradiction.
Qed.

Lemma raise_config_error_caught_witness :
  catches ConfigError (Exn AuditConfigError ["no query at 'audits/a.sql'"]) = true
  /\ catches AuditError (Exn AuditConfigError ["no query at 'audits/a.sql'"]) = false.
Proof.
  destruct (raise_config_error_caught "no query" (Some (LocStr "audits/a.sql"))
              AuditConfigError
              (Exn AuditConfigError ["no query at 'audits/a.sql'"])
              eq_refl eq_refl)
    as (Hconfig & _ & _ & Hother).
  split.
  - exact Hconfig.
  - apply Hother. simpl. tauto.
Defined.

(** X4.  The groups of the hierarchy are disjoint: a class caught by the
    handler of one group root ([ConfigError], [PlanError], [AuditError],
    [ApiError], [EngineAdapterError]) is caught by the handler of no
    other, so that [AuditConfigError] is a [ConfigError] and not an
    [AuditError]; and a class caught by the [ApiClientError] handler is
    not caught by the [ApiServerError] handler. *)
Theorem groups_disjoint (c g1 g2 : ErrorClass) :
  (In g1 group_roots -> In g2 group_roots -> g1 <> g2 ->
   issubclass c g1 = true -> issubclass c g2 = false)
  /\ (issubclass c ApiClientError = true -> issubclass c ApiServerError = false).
Proof.
  split.
  - intros H1 H2 Hne S1. simpl in H1, H2.
    repeat (destruct H1 as [<- | H1]); try contradiction;
      repeat (destruct H2 as [<- | H2]); try contradiction;
      try (contradiction Hne; reflexivity);
      destruct c; vm_compute in S1; try discriminate S1; reflexivity.
  - destruct c; intros S1; vm_compute in S1; try discriminate S1; reflexivity.
Qed.

Lemma groups_disjoint_witness :
  issubclass AuditConfigError AuditError = false
  /\ issubclass NotFoundError ApiServerError = false.
Proof.
  split.
  - apply (proj1 (groups_disjoint AuditConfigError ConfigError AuditError)).
    + simpl. tauto.
    + simpl. tauto.
    + discriminate.
    + reflexivity.
  - apply (proj2 (groups_disjoint NotFoundError ConfigError ConfigError)).
    reflexivity.
Defined.

Lemma issubclass_checks :
  forallb (fun a => issubclass a a && issubclass a Exception) all_classes = true
  /\ forallb (fun a => forallb (fun b => forallb (fun c =>
       implb (issubclass a b && issubclass b c) (issubclass a c))
       all_classes) all_classes) all_classes = true
  /\ forallb (fun a => forallb (fun b =>
       implb (issubclass a b && issubclass b a) (ErrorClass_beq a b))
       all_classes) all_classes = true.
Proof. vm_compute. repeat split. Qed.

Lemma ErrorClass_beq_eq (a b : ErrorClass) : ErrorClass_beq a b = true -> a = b.
Proof. destruct a, b; simpl; intros H; try discriminate H; reflexivity. Qed.

(** X5.  Handlers nest along the hierarchy: [issubclass] is reflexive,
    transitive and antisymmetric, so a handler for a class catches
    whatever a handler for one of its subclasses catches, and every
    class, [MissingContextException] too, is caught by a handler for
    [Exception]. *)
Theorem issubclass_order (a b c : ErrorClass) :
  issubclass a a = true
  /\ issubclass a Exception = true
  /\ (issubclass a b = true -> issubclass b c = true -> issubclass a c = true)
  /\ (issubclass a b = true -> issubclass b a = true -> a = b).
Proof.
  destruct issubclass_checks as (Hrefl & Htrans & Hanti).
  pose proof (all_classes_complete a) as Ia.
  pose proof (all_classes_complete b) as Ib.
  pose proof (all_classes_complete c) as Ic.
  rewrite forallb_forall in Hrefl, Htrans, Hanti.
  specialize (Hrefl a Ia). apply andb_prop in Hrefl as [Hr He].
  specialize (Htrans a Ia). rewrite forallb_forall in Htrans.
  specialize (Htrans b Ib). rewrite forallb_forall in Htrans.
  specialize (Htrans c Ic).
  specialize (Hanti a Ia). rewrite forallb_forall in Hanti.
  specialize (Hanti b Ib).
  split; [exact Hr |]. split; [exact He |]. split.
  - intros Hab Hbc. rewrite Hab, Hbc in Htrans. exact Htrans.
  - intros Hab Hba. rewrite Hab, Hba in Hanti. apply ErrorClass_beq_eq, Hanti.
Qed.

Lemma issubclass_order_witness :
  issubclass NotFoundError ApiError = true.
Proof.
  apply (proj1 (proj2 (proj2 (issubclass_order NotFoundError ApiClientError
                                 ApiError)))); reflexivity.
Defined.

(** X6.  For each class of the module, what [raise_config_error] raises
    when that class is requested, here without location: a class whose initialiser wants more
    than a message, or none ([AuditError], [ApiError], [ApiClientError],
    [ApiServerError], [CircuitBreakerError]), gives a [TypeError] in
    place of the requested error; [NotFoundError] gives an instance with
    the message and code 404; every other class gives an instance of the
    class that holds the message. *)
Theorem raise_config_error_classes (msg : string) (error_type : ErrorClass) :
  (In error_type not_message_only ->
   raise_config_error msg None error_type = Raise CallError)
  /\ (error_type = NotFoundError ->
      raise_config_error msg None error_type
      = Raise (ApiExn NotFoundError msg 404))
  /\ (~ In error_type not_message_only -> error_type <> NotFoundError ->
      raise_config_error msg None error_type = Raise (Exn error_type [msg])).
Proof.
  split; [| split].
  - intros Hin. simpl in Hin.
    repeat (destruct Hin as [<- | Hin]; [reflexivity |]). contradiction.
  - intros ->. reflexivity.
  - intros Hout Hnf. destruct error_type; try reflexivity;
      try (contradiction Hnf; reflexivity);
      contradiction Hout; simpl; tauto.
Qed.

Lemma raise_config_error_classes_witness :
  raise_config_error "bad" None ApiServerError = Raise CallError
  /\ raise_config_error "bad" None NotFoundError
     = Raise (ApiExn NotFoundError "bad" 404)
  /\ raise_config_error "bad" None PlanError = Raise (Exn PlanError ["bad"]).
Proof.
  split; [| split].
  - apply (proj1 (raise_config_error_classes "bad" ApiServerError)).
    simpl. tauto.
  - apply (proj1 (proj2 (raise_config_error_classes "bad" NotFoundError))).
    reflexivity.
  - apply (proj2 (proj2 (raise_config_error_classes "bad" PlanError))).
    + simpl. intros H.
      repeat (destruct H as [H | H]; [discriminate H |]). exact H.
    + discriminate.
Defined.

(** X7.  A location given as a path and the same location given as the
    non-empty text of that path make [raise_config_error] raise the same
    error, whatever class is requested. *)
Theorem raise_config_error_path (msg : string) (s : string)
        (error_type : ErrorClass) :
  s <> "" ->
  raise_config_error msg (Some (LocPath {| Path_str := s |})) error_type
  = raise_config_error msg (Some (LocStr s)) error_type.
Proof.
  intros Hs. unfold raise_config_error. simpl.
  rewrite (truthy_str_true s Hs). reflexivity.
Qed.

Lemma raise_config_error_path_witness :
  raise_config_error "bad" (Some (LocPath {| Path_str := "m.sql" |})) ConfigError
  = raise_config_error "bad" (Some (LocStr "m.sql")) ConfigError.
Proof.
  apply raise_config_error_path. discriminate.
Defined.

(** X8.  For a class of the Config family, a truthy location always
    shows in the raised error: the error differs from the one raised
    without location, and two non-empty text locations that give the same
    error are the same text. *)
Theorem raise_config_error_location (msg : string) (error_type : ErrorClass) :
  issubclass error_type ConfigError = true ->
  (forall location, truthy_location location = true ->
     raise_config_error msg location error_type
     <> raise_config_error msg None error_type)
  /\ (forall s1 s2, s1 <> "" -> s2 <> "" ->
        raise_config_error msg (Some (LocStr s1)) error_type
        = raise_config_error msg (Some (LocStr s2)) error_type ->
        s1 = s2).
Proof.
  intros Hfam. split.
  - intros location Ht H.
    rewrite !(raise_config_error_unfold _ _ _ Hfam), Ht in H. simpl in H.
    injection H as H. revert H. apply append_nonempty. discriminate.
  - intros s1 s2 H1 H2 H.
    rewrite !(raise_config_error_unfold _ _ _ Hfam) in H. simpl in H.
    rewrite (truthy_str_true _ H1), (truthy_str_true _ H2) in H.
    injection H as H.
    apply append_cancel_l in H.
    apply (append_cancel_l " at '") in H.
    apply append_last_cancel in H. exact H.
Qed.

Lemma raise_config_error_location_witness :
  raise_config_error "bad" (Some (LocStr "m.sql")) ConfigError
  <> raise_config_error "bad" None ConfigError.
Proof.
  apply (proj1 (raise_config_error_location "bad" ConfigError eq_refl)).
  reflexivity.
Defined.

(** X10.  Passing the stored adapter dialect to [sql] explicitly, or any
    falsy dialect, renders the same text as passing no dialect: the
    adapter dialect is the default, as the docstring of [sql] says. *)
Theorem audit_sql_default (self : AuditError_t) (dialect : option string)
        (opts : Opts) :
  AuditError_sql self (adapter_dialect self) opts = AuditError_sql self None opts
  /\ (truthy dialect = false ->
      AuditError_sql self dialect opts = AuditError_sql self None opts).
Proof.
  unfold AuditError_sql, py_or. split.
  - destruct (truthy (adapter_dialect self)); reflexivity.
  - intros ->. reflexivity.
Qed.

Lemma audit_sql_default_witness :
  AuditError_sql (AuditError_init "a1" 3 sample_query None (Some "spark"))
                 (Some "") []
  = AuditError_sql (AuditError_init "a1" 3 sample_query None (Some "spark"))
                   None [].
Proof.
  apply (proj2 (audit_sql_default
                  (AuditError_init "a1" 3 sample_query None (Some "spark"))
                  (Some "") [])).
  reflexivity.
Defined.
